(** * gistapi: the gist search endpoint

    A shallow embedding of [src/gistapi/gistapi.py]: the helper
    [gists_for_user] and the request handler [search], together with the
    part of the Python runtime they rely on (JSON values as Python
    objects, truthiness, [in], subscripting, [set], exceptions, the
    [requests] and [re] libraries as collaborators). *)

From Stdlib Require Import ZArith List String Ascii Bool Lia.
From Stdlib Require Import SpecFloat DecimalString Permutation.
Import ListNotations.

Local Open Scope string_scope.
Local Open Scope Z_scope.
Local Open Scope list_scope.

#[local] Set Warnings "-register-all".

(** ** JSON values as the Python objects [json] decodes them to *)

(** [request.get_json()] and [response.json()] return [None], [bool],
    [int], [float], [str], [list] or [dict] objects.  A [dict] keeps its
    items in insertion order, so it is an association list.  Strings are
    sequences of 8-bit characters. *)
Inductive Json : Type :=
| JNull
| JBool (b : bool)
| JInt (z : Z)
| JFloat (f : spec_float)
| JStr (s : string)
| JArr (items : list Json)
| JObj (members : list (string * Json)).

(** Exceptions the handler can let escape. *)
Inductive PyExc : Type :=
| TypeError
| KeyError
| ValueError
| AttributeError
| JSONDecodeError
| RequestException
| re_error.

(** The result of evaluating a Python expression: a value or a raised
    exception. *)
Inductive Outcome (A : Type) : Type :=
| Returns (a : A)
| Raises (e : PyExc).
Arguments Returns {A} a.
Arguments Raises {A} e.

Module Py.

(** [bool(v)] *)
Definition truthy (v : Json) : bool :=
  match v with
  | JNull => false
  | JBool b => b
  | JInt z => negb (z =? 0)
  | JFloat (S754_zero _) => false
  | JFloat _ => true
  | JStr s => negb (String.eqb s "")
  | JArr items => match items with [] => false | _ => true end
  | JObj members => match members with [] => false | _ => true end
  end.

(** [needle in s] for two strings: substring test. *)
Fixpoint is_substring (needle s : string) : bool :=
  String.prefix needle s ||
  match s with
  | EmptyString => false
  | String _ s' => is_substring needle s'
  end.

(** [d.get(key)] on the items of a dict. *)
Fixpoint lookup (key : string) (members : list (string * Json)) : option Json :=
  match members with
  | [] => None
  | (k, v) :: rest => if String.eqb key k then Some v else lookup key rest
  end.

Definition has_key (key : string) (members : list (string * Json)) : bool :=
  match lookup key members with Some _ => true | None => false end.

(** [key in container] for a string [key]: key membership in a dict,
    element membership in a list, substring test in a string; any other
    object is not iterable. *)
Definition contains (key : string) (container : Json) : Outcome bool :=
  match container with
  | JObj members => Returns (has_key key members)
  | JArr items =>
      Returns (existsb (fun v => match v with
                                 | JStr s => String.eqb key s
                                 | _ => false
                                 end) items)
  | JStr s => Returns (is_substring key s)
  | _ => Raises TypeError
  end.

(** [obj[key]] for a string [key]: only a dict accepts it. *)
Definition getitem (obj : Json) (key : string) : Outcome Json :=
  match obj with
  | JObj members =>
      match lookup key members with
      | Some v => Returns v
      | None => Raises KeyError
      end
  | _ => Raises TypeError
  end.

(** [obj.values()] *)
Definition values (obj : Json) : Outcome (list Json) :=
  match obj with
  | JObj members => Returns (map snd members)
  | _ => Raises AttributeError
  end.

(** [value, = xs]: unpacking into exactly one target. *)
Definition unpack1 (xs : list Json) : Outcome Json :=
  match xs with
  | [x] => Returns x
  | _ => Raises ValueError
  end.

(** [hash(v)] is defined for every JSON object but lists and dicts. *)
Definition hashable (v : Json) : bool :=
  match v with
  | JArr _ | JObj _ => false
  | _ => true
  end.

(** [iter(v)]: the elements of a list, the keys of a dict, the
    characters of a string. *)
Definition iter (v : Json) : Outcome (list Json) :=
  match v with
  | JArr items => Returns items
  | JObj members => Returns (map (fun kv => JStr (fst kv)) members)
  | JStr s => Returns (map (fun c => JStr (String c "")) (list_ascii_of_string s))
  | _ => Raises TypeError
  end.

(** A float equals an int when it denotes the same number. *)
Definition float_eq_int (f : spec_float) (z : Z) : bool :=
  match f with
  | S754_zero _ => z =? 0
  | S754_finite s m e =>
      let v := if s then Z.neg m else Z.pos m in
      if 0 <=? e then v * 2 ^ e =? z else v =? z * 2 ^ (- e)
  | _ => false
  end.

Definition as_number (v : Json) : option (Z + spec_float) :=
  match v with
  | JBool b => Some (inl (if b then 1 else 0))
  | JInt z => Some (inl z)
  | JFloat f => Some (inr f)
  | _ => None
  end.

(** [a == b] between hashable objects: numbers (booleans included)
    compare by value, strings by content, [None] equals only itself. *)
Definition eq (a b : Json) : bool :=
  match a, b with
  | JNull, JNull => true
  | JStr s, JStr t => String.eqb s t
  | _, _ =>
      match as_number a, as_number b with
      | Some (inl x), Some (inl y) => x =? y
      | Some (inl x), Some (inr g) => float_eq_int g x
      | Some (inr f), Some (inl y) => float_eq_int f y
      | Some (inr f), Some (inr g) => SFeqb f g
      | _, _ => false
      end
  end.

(** The distinct elements of a sequence of hashable objects, first
    occurrences kept. *)
Fixpoint dedup (l : list Json) : list Json :=
  match l with
  | [] => []
  | x :: rest => x :: filter (fun y => negb (eq x y)) (dedup rest)
  end.

End Py.

(** ** The runtime the handler runs in *)

(** A compiled pattern object; only [findall] is used. *)
Record Pattern : Type := { findall : string -> list string }.

(** What [requests.get] returns: [json] stands for the method
    [response.json()], which raises when the body is not JSON. *)
Record HttpResponse : Type := {
  status_code : Z;
  json : Outcome Json;
  text : string
}.

(** The collaborators of the module.  [http_get log url] is the answer
    of [requests.get(url)] after the calls in [log] were made (the cache
    installed by [requests_cache] is part of it); [re_compile] is
    [re.compile]; [set_order] is the order in which a [set] with the
    given distinct elements is iterated; [repr] is [str()] of floats,
    lists and dicts. *)
Record Runtime : Type := {
  http_get : list string -> string -> Outcome HttpResponse;
  re_compile : string -> Z -> Outcome Pattern;
  set_order : list Json -> list Json;
  repr : Json -> string
}.

(** A computation: it reads and extends the log of outbound calls and
    returns or raises. *)
Definition M (A : Type) : Type := list string -> Outcome A * list string.

Definition ret {A} (a : A) : M A := fun log => (Returns a, log).

Definition bind {A B} (m : M A) (k : A -> M B) : M B :=
  fun log =>
    match m log with
    | (Returns a, log') => k a log'
    | (Raises e, log') => (Raises e, log')
    end.

Definition lift {A} (o : Outcome A) : M A := fun log => (o, log).

Notation "x <- m ;; k" := (bind m (fun x => k))
  (at level 61, m at next level, right associativity).

(** [str(v)], as [str.format] and f-strings insert a value. *)
Definition py_str (rt : Runtime) (v : Json) : string :=
  match v with
  | JStr s => s
  | JNull => "None"
  | JBool true => "True"
  | JBool false => "False"
  | JInt z => NilZero.string_of_int (Z.to_int z)
  | _ => repr rt v
  end.

(** [set(v)]: every element is hashed, in order; the distinct ones are
    then iterated in the order of the set. *)
Definition py_set (rt : Runtime) (v : Json) : Outcome (list Json) :=
  match Py.iter v with
  | Returns items =>
      if forallb Py.hashable items
      then Returns (set_order rt (Py.dedup items))
      else Raises TypeError
  | Raises e => Raises e
  end.

(** [requests.get(url)]: one outbound call, recorded in the log. *)
Definition requests_get (rt : Runtime) (url : string) : M HttpResponse :=
  fun log => (http_get rt log url, log ++ [url]).

(** [re.compile(pattern, flags)]: the pattern must be a string. *)
Definition py_re_compile (rt : Runtime) (pattern : Json) (flags : Z)
  : Outcome Pattern :=
  match pattern with
  | JStr p => re_compile rt p flags
  | _ => Raises TypeError
  end.

Definition re_IGNORECASE : Z := 2.
Definition re_MULTILINE : Z := 8.

(** ** The module [gistapi] *)

(** [ping()], lines 24-27: a constant answer, with no outbound call. *)
Definition ping : M string := ret "pong".

(** [gists_for_user(username)], lines 30-54. *)
Definition gists_url (rt : Runtime) (username : Json) : string :=
  ("https://api.github.com/users/" ++ py_str rt username ++ "/gists")%string.

Definition gists_for_user (rt : Runtime) (username : Json)
  : M (bool * Json * Json) :=
  response <- requests_get rt (gists_url rt username) ;;
  json_data <- lift (json response) ;;
  if status_code response =? 200
  then ret (true, JStr "Successful", json_data)
  else
    message <- lift (Py.getitem json_data "message") ;;
    ret (false, message, json_data).

(** The flags of line 86: [re.MULTILINE | re.IGNORECASE]. *)
Definition search_flags : Z := Z.lor re_MULTILINE re_IGNORECASE.

(** The public address of a gist, the f-string of lines 98-99. *)
Definition gist_url (rt : Runtime) (username gist_id : Json) : string :=
  ("https://gist.github.com/" ++ py_str rt username ++ "/"
   ++ py_str rt gist_id)%string.

(** The body of the loop of [search], lines 92-99, for one [gist] and
    the [match_list] built so far. *)
Definition search_gist (rt : Runtime) (username : Json)
    (regex_pattern : Pattern) (gist : Json) (match_list : list string)
  : M (list string) :=
  files <- lift (Py.getitem gist "files") ;;
  file_values <- lift (Py.values files) ;;
  value <- lift (Py.unpack1 file_values) ;;
  raw_url <- lift (Py.getitem value "raw_url") ;;
  response <- requests_get rt (py_str rt raw_url) ;;
  if status_code response =? 200 then
    let matches := findall regex_pattern (text response) in
    if (0 <? Z.of_nat (List.length matches)) then
      gist_id <- lift (Py.getitem gist "id") ;;
      ret (match_list ++ [gist_url rt username gist_id])
    else ret match_list
  else ret match_list.

(** The [for] loop of lines 87-99 over the elements of the set. *)
Fixpoint search_loop (rt : Runtime) (username : Json)
    (regex_pattern : Pattern) (gists : list Json) (match_list : list string)
  : M (list string) :=
  match gists with
  | [] => ret match_list
  | gist :: rest =>
      match_list' <- search_gist rt username regex_pattern gist match_list ;;
      search_loop rt username regex_pattern rest match_list'
  end.

(** [search()], lines 58-114; [post_data] is what [request.get_json()]
    returned and the result is the dict given to [jsonify]. *)
Definition search (rt : Runtime) (post_data : Json) : M Json :=
  if Py.truthy post_data then
    has_username <- lift (Py.contains "username" post_data) ;;
    if negb has_username then
      ret (JObj [("status", JStr "failed");
                 ("message", JStr "username is required")])
    else
      has_pattern <- lift (Py.contains "pattern" post_data) ;;
      if negb has_pattern then
        ret (JObj [("status", JStr "failed");
                   ("message", JStr "pattern is required")])
      else
        username <- lift (Py.getitem post_data "username") ;;
        pattern <- lift (Py.getitem post_data "pattern") ;;
        listing <- gists_for_user rt username ;;
        let '(is_successful, msg, data) := listing in
        if (is_successful : bool) then
          regex_pattern <- lift (py_re_compile rt pattern search_flags) ;;
          gists <- lift (py_set rt data) ;;
          match_list <- search_loop rt username regex_pattern gists [] ;;
          ret (JObj [("status", JStr "success");
                     ("username", username);
                     ("pattern", pattern);
                     ("matches", JArr (map JStr match_list))])
        else
          ret (JObj [("status", JStr "failed");
                     ("message", msg);
                     ("username", username);
                     ("pattern", pattern);
                     ("matches", JArr [])])
  else
    ret (JObj [("status", JStr "failed");
               ("message", JStr "Invalid parameters")]).

(** ** A fragment of Python's [re]

    The syntax and the matching rules of [re] for patterns built from
    literal characters, [.], [^], [$], bracket sets of letters and
    digits, the greedy quantifiers [*], [+], [?] on one character, and
    [|] at top level, under the flags [IGNORECASE] and [MULTILINE].
    Any other construct is left to the runtime ([Unmodelled]). *)
Module Re.

Definition code (c : ascii) : Z := Z.of_N (N_of_ascii c).

Definition newline : ascii := ascii_of_nat 10.

Definition in_range (lo hi c : ascii) : bool :=
  (code lo <=? code c) && (code c <=? code hi).

Definition is_alnum (c : ascii) : bool :=
  in_range "0" "9" c || in_range "A" "Z" c || in_range "a" "z" c.

Definition lower (c : ascii) : ascii :=
  if in_range "A" "Z" c then ascii_of_N (N_of_ascii c + 32) else c.

Definition upper (c : ascii) : ascii :=
  if in_range "a" "z" c then ascii_of_N (N_of_ascii c - 32) else c.

(** Atoms that consume one character. *)
Inductive CharClass : Type :=
| Lit (c : ascii)
| AnyChar
| InSet (negated : bool) (ranges : list (ascii * ascii)).

Inductive Quant : Type := Once | ZeroOrOne | ZeroOrMore | OneOrMore.

Inductive Item : Type :=
| AtBol
| AtEol
| Rep (cls : CharClass) (q : Quant).

Definition Branch : Type := list Item.

(** The alternatives of a pattern, in the order they are tried. *)
Definition Regex : Type := list Branch.

(** The three results of reading a pattern: a regex of the fragment, a
    pattern [re.compile] rejects, a pattern outside the fragment. *)
Inductive Parsed (A : Type) : Type :=
| Accepted (a : A)
| Malformed
| Unmodelled.
Arguments Accepted {A} a.
Arguments Malformed {A}.
Arguments Unmodelled {A}.

(** The members of a bracket set up to the closing bracket; reaching the
    end of the pattern first is the error "unterminated character set",
    a range whose bounds are reversed is "bad character range". *)
Fixpoint parse_set (s : list ascii) (acc : list (ascii * ascii))
  : Parsed (list (ascii * ascii) * list ascii) :=
  match s with
  | [] => Malformed
  | c :: rest =>
      if Ascii.eqb c "]" then
        match acc with
        | [] => Unmodelled
        | _ => Accepted (rev acc, rest)
        end
      else if is_alnum c then
        match rest with
        | dash :: d :: rest' =>
            if Ascii.eqb dash "-" then
              if is_alnum d then
                if code c <=? code d
                then parse_set rest' ((c, d) :: acc)
                else Malformed
              else Unmodelled
            else parse_set rest ((c, c) :: acc)
        | _ => parse_set rest ((c, c) :: acc)
        end
      else Unmodelled
  end.

(** A quantifier applies to the character class before it; with nothing
    or an anchor before it the error is "nothing to repeat". *)
Definition quantify (q : Quant) (cur : list Item) : Parsed (list Item) :=
  match cur with
  | Rep cls Once :: before => Accepted (Rep cls q :: before)
  | Rep _ _ :: _ => Unmodelled
  | _ => Malformed
  end.

(** The characters a backslash makes literal. *)
Definition is_meta (c : ascii) : bool :=
  existsb (Ascii.eqb c)
    (list_ascii_of_string ".^$*+?{}[]\|()").

(** One pass over the pattern; [done] holds the finished alternatives
    and [cur] the items of the current one, both in reverse. *)
Fixpoint parse_from (fuel : nat) (s : list ascii)
    (done : list Branch) (cur : list Item) : Parsed Regex :=
  match fuel with
  | O => Unmodelled
  | S fuel' =>
      let push item rest := parse_from fuel' rest done (item :: cur) in
      let repeat q rest :=
        match quantify q cur with
        | Accepted cur' => parse_from fuel' rest done cur'
        | Malformed => Malformed
        | Unmodelled => Unmodelled
        end in
      match s with
      | [] => Accepted (rev (rev cur :: done))
      | c :: rest =>
          if Ascii.eqb c "|" then parse_from fuel' rest (rev cur :: done) []
          else if Ascii.eqb c "*" then repeat ZeroOrMore rest
          else if Ascii.eqb c "+" then repeat OneOrMore rest
          else if Ascii.eqb c "?" then repeat ZeroOrOne rest
          else if Ascii.eqb c "." then push (Rep AnyChar Once) rest
          else if Ascii.eqb c "^" then push AtBol rest
          else if Ascii.eqb c "$" then push AtEol rest
          else if Ascii.eqb c "\" then
            match rest with
            | [] => Malformed
            | d :: rest' =>
                if is_meta d then push (Rep (Lit d) Once) rest'
                else Unmodelled
            end
          else if Ascii.eqb c "[" then
            let '(negated, body) :=
              match rest with
              | d :: rest' =>
                  if Ascii.eqb d "^" then (true, rest') else (false, rest)
              | [] => (false, rest)
              end in
            match parse_set body [] with
            | Accepted (ranges, rest') =>
                push (Rep (InSet negated ranges) Once) rest'
            | Malformed => Malformed
            | Unmodelled => Unmodelled
            end
          else if Ascii.eqb c ")" then Malformed
          else if is_meta c then Unmodelled
          else if code c <? 128 then push (Rep (Lit c) Once) rest
          else Unmodelled
      end
  end.

Definition parse (pattern : string) : Parsed Regex :=
  let s := list_ascii_of_string pattern in
  parse_from (S (List.length s)) s [] [].

(** *** Matching *)

Section Matching.

(** [ic] is [IGNORECASE], [ml] is [MULTILINE]. *)
Variables ic ml : bool.

Definition class_matches (cls : CharClass) (c : ascii) : bool :=
  match cls with
  | Lit l =>
      if ic then Ascii.eqb (lower l) (lower c) else Ascii.eqb l c
  | AnyChar => negb (Ascii.eqb c newline)
  | InSet negated ranges =>
      xorb negated
        (existsb (fun r =>
                    if ic
                    then in_range (fst r) (snd r) (lower c)
                         || in_range (fst r) (snd r) (upper c)
                    else in_range (fst r) (snd r) c) ranges)
  end.

(** A position in the text: the characters before it, nearest first,
    and the characters after it. *)
Definition Pos : Type := (list ascii * list ascii).

Definition at_bol (p : Pos) : bool :=
  match fst p with
  | [] => true
  | c :: _ => ml && Ascii.eqb c newline
  end.

Definition at_eol (p : Pos) : bool :=
  match snd p with
  | [] => true
  | c :: rest =>
      Ascii.eqb c newline && (ml || match rest with [] => true | _ => false end)
  end.

(** One character of the class, then [k]. *)
Definition once (ok : ascii -> bool) (k : Pos -> option Pos) (p : Pos)
  : option Pos :=
  match snd p with
  | c :: after => if ok c then k (c :: fst p, after) else None
  | [] => None
  end.

(** Greedy repetition: as many characters of the class as possible,
    giving them back one by one while [k] fails. *)
Fixpoint star (ok : ascii -> bool) (k : Pos -> option Pos)
    (before after : list ascii) : option Pos :=
  match after with
  | c :: after' =>
      if ok c then
        match star ok k (c :: before) after' with
        | Some e => Some e
        | None => k (before, after)
        end
      else k (before, after)
  | [] => k (before, after)
  end.

Fixpoint match_items (items : Branch) (k : Pos -> option Pos) (p : Pos)
  : option Pos :=
  match items with
  | [] => k p
  | AtBol :: rest => if at_bol p then match_items rest k p else None
  | AtEol :: rest => if at_eol p then match_items rest k p else None
  | Rep cls q :: rest =>
      let ok := class_matches cls in
      let k' := match_items rest k in
      match q with
      | Once => once ok k' p
      | ZeroOrOne =>
          match once ok k' p with
          | Some e => Some e
          | None => k' p
          end
      | ZeroOrMore => star ok k' (fst p) (snd p)
      | OneOrMore => once ok (fun p' => star ok k' (fst p') (snd p')) p
      end
  end.

(** The end of the match: with [must_advance] an empty match is
    refused. *)
Definition accept (must_advance : bool) (start : Pos) (p : Pos) : option Pos :=
  if must_advance && (List.length (snd p) =? List.length (snd start))%nat
  then None else Some p.

(** A match starting at [p]: the first alternative that succeeds. *)
Fixpoint match_at (r : Regex) (must_advance : bool) (p : Pos) : option Pos :=
  match r with
  | [] => None
  | branch :: others =>
      match match_items branch (accept must_advance p) p with
      | Some e => Some e
      | None => match_at others must_advance p
      end
  end.

(** The leftmost match at or after a position; [must_advance] holds for
    the first candidate only. *)
Fixpoint search_from (r : Regex) (must_advance : bool)
    (before after : list ascii) : option (Pos * Pos) :=
  match match_at r must_advance (before, after) with
  | Some e => Some ((before, after), e)
  | None =>
      match after with
      | [] => None
      | c :: after' => search_from r false (c :: before) after'
      end
  end.

(** The matches [findall] collects, left to right, each search starting
    where the last match ended; after an empty match the next one must
    advance (the rule of Python 3.7 and later).  Each round moves on in
    the text or sets [must_advance], so twice the length of the text
    and three rounds are enough. *)
Fixpoint findall_from (fuel : nat) (r : Regex) (must_advance : bool)
    (before after : list ascii) : list string :=
  match fuel with
  | O => []
  | S fuel' =>
      match search_from r must_advance before after with
      | None => []
      | Some (s, e) =>
          let n := (List.length (snd s) - List.length (snd e))%nat in
          string_of_list_ascii (firstn n (snd s))
          :: findall_from fuel' r (Nat.eqb n 0) (fst e) (snd e)
      end
  end.

Definition findall_regex (r : Regex) (text : string) : list string :=
  let s := list_ascii_of_string text in
  findall_from (2 * List.length s + 3) r false [] s.

End Matching.

(** [re.compile] on the fragment; [fallback] answers for the patterns
    and flags outside it. *)
Definition compile (fallback : string -> Z -> Outcome Pattern)
    (pattern : string) (flags : Z) : Outcome Pattern :=
  if Z.land flags (Z.lnot (Z.lor re_IGNORECASE re_MULTILINE)) =? 0 then
    match parse pattern with
    | Accepted r =>
        Returns {| findall :=
                     findall_regex (Z.testbit flags 1) (Z.testbit flags 3) r |}
    | Malformed => Raises re_error
    | Unmodelled => fallback pattern flags
    end
  else fallback pattern flags.

End Re.

(** ** Notions used in the statements *)

(** The two responses of the validation of lines 72-76 and the response
    of line 114. *)
Definition field_required (field : string) : Json :=
  JObj [("status", JStr "failed");
        ("message", JStr (field ++ " is required")%string)].

Definition invalid_parameters : Json :=
  JObj [("status", JStr "failed"); ("message", JStr "Invalid parameters")].

(** A request body has a field when it is a JSON object with that key. *)
Definition has_field (key : string) (body : Json) : bool :=
  match body with
  | JObj members => Py.has_key key members
  | _ => false
  end.

(** The bodies on which [in] is defined. *)
Definition is_container (body : Json) : bool :=
  match body with
  | JObj _ | JArr _ | JStr _ => true
  | _ => false
  end.








(** A line on its own inside a text. *)
Definition embedded_line (before line after : string) : string :=
  (before ++ String Re.newline line ++ String Re.newline after)%string.

(** What the loop of lines 87-99 uses of a gist with one file: the
    address its content is fetched from, the answer to that fetch, and
    the public address of the gist. *)
Record FetchedGist : Type := {
  raw_address : string;
  answer : HttpResponse;
  public_address : string
}.

(** The test of lines 95-97 on the answer. *)
Definition matched (regex_pattern : Pattern) (g : FetchedGist) : bool :=
  (status_code (answer g) =? 200)
  && (0 <? Z.of_nat (List.length (findall regex_pattern (text (answer g))))).

(** [gist] is a dict with an [id] and exactly one file, whose [raw_url]
    is answered by [page] as [g] says. *)
Definition describes (rt : Runtime) (page : string -> Outcome HttpResponse)
    (username : Json) (gist : Json) (g : FetchedGist) : Prop :=
  exists members name value raw_url gist_id,
    gist = JObj members
    /\ Py.lookup "files" members = Some (JObj [(name, value)])
    /\ Py.getitem value "raw_url" = Returns raw_url
    /\ Py.lookup "id" members = Some gist_id
    /\ raw_address g = py_str rt raw_url
    /\ page (raw_address g) = Returns (answer g)
    /\ public_address g = gist_url rt username gist_id.

(** A listing with nothing to iterate over: [[]], [{}] or [""]. *)
Definition nothing_listed (data : Json) : bool :=
  match Py.iter data with
  | Returns [] => true
  | _ => false
  end.

(** ** A concrete runtime and concrete gists, for the examples *)
Module Demo.

Definition ok_json (body : Json) : HttpResponse :=
  {| status_code := 200; json := Returns body; text := "" |}.

Definition ok_text (body : string) : HttpResponse :=
  {| status_code := 200; json := Raises JSONDecodeError; text := body |}.

Definition not_found : HttpResponse :=
  {| status_code := 404;
     json := Returns (JObj [("message", JStr "Not Found")]);
     text := "Not Found" |}.

(** A web that serves fixed pages and refuses any other address. *)
Fixpoint web (pages : list (string * HttpResponse)) (log : list string)
    (url : string) : Outcome HttpResponse :=
  match pages with
  | [] => Raises RequestException
  | (u, response) :: rest =>
      if String.eqb url u then Returns response else web rest log url
  end.

(** [re] is the fragment of [Re] and refuses any other pattern; a set
    iterates in insertion order. *)
Definition runtime (pages : list (string * HttpResponse)) : Runtime :=
  {| http_get := web pages;
     re_compile := Re.compile (fun _ _ => Raises re_error);
     set_order := fun elements => elements;
     repr := fun _ => "" |}.

Definition request (username pattern : string) : Json :=
  JObj [("username", JStr username); ("pattern", JStr pattern)].

Definition listing_url : string :=
  "https://api.github.com/users/octocat/gists".

Definition raw (name : string) : string :=
  ("https://gist.githubusercontent.com/octocat/raw/" ++ name)%string.

Definition gist (id : string) (files : list string) : Json :=
  JObj [("id", JStr id);
        ("files",
         JObj (map (fun name => (name, JObj [("raw_url", JStr (raw name))]))
                   files))].

(** Three gists with one file each: the content of [a.txt] has a line
    [foo], that of [b.txt] has none, [c.txt] cannot be fetched. *)
Definition gist_a : Json := gist "aaa" ["a.txt"].
Definition gist_b : Json := gist "bbb" ["b.txt"].
Definition gist_c : Json := gist "ccc" ["c.txt"].

(** A gist without files and a gist with two. *)
Definition gist_empty : Json := gist "eee" [].
Definition gist_two : Json := gist "ttt" ["a.txt"; "b.txt"].

Definition pages (listing : Json) : list (string * HttpResponse) :=
  [(listing_url, ok_json listing);
   (raw "a.txt", ok_text (embedded_line "bar" "foo" "baz"));
   (raw "b.txt", ok_text "nothing here");
   (raw "c.txt", not_found)].

End Demo.

(** ** Request validation (lines 69-76 and 113-114) *)

Ltac run_handler :=
  unfold search, gists_for_user, requests_get, bind, lift, ret; simpl.

Lemma lookup_has_key key members v :
  Py.lookup key members = Some v -> Py.has_key key members = true.
Proof. unfold Py.has_key. intros ->. reflexivity. Qed.

Lemma lookup_truthy key members v :
  Py.lookup key members = Some v -> Py.truthy (JObj members) = true.
Proof. destruct members; simpl; [discriminate | reflexivity]. Qed.

(** A truthy body that does not contain [username] is answered at line
    73, with no outbound call. *)
Lemma search_without_username rt post_data log :
  Py.truthy post_data = true ->
  Py.contains "username" post_data = Returns false ->
  search rt post_data log = (Returns (field_required "username"), log).
Proof.
  intros Ht Hu. run_handler. rewrite Ht, Hu. reflexivity.
Qed.

(** A truthy body that contains [username] but not [pattern] is answered
    at line 76, with no outbound call. *)
Lemma search_without_pattern rt post_data log :
  Py.truthy post_data = true ->
  Py.contains "username" post_data = Returns true ->
  Py.contains "pattern" post_data = Returns false ->
  search rt post_data log = (Returns (field_required "pattern"), log).
Proof.
  intros Ht Hu Hp. run_handler. rewrite Ht, Hu. simpl. rewrite Hp. reflexivity.
Qed.

(** A truthy body on which [in] is undefined (a number, [true]) makes
    line 72 raise. *)
Lemma search_not_a_container rt post_data log :
  Py.truthy post_data = true ->
  is_container post_data = false ->
  search rt post_data log = (Raises TypeError, log).
Proof.
  intros Ht Hc. run_handler. rewrite Ht.
  destruct post_data; simpl in *; try discriminate; reflexivity.
Qed.

(** C9: a body that parses to a falsy value is answered with "Invalid
    parameters", as is [None], which [request.get_json()] returns when
    it has no value to give; no outbound call is made, and the answer is
    never a field-required message. *)
Theorem search_falsy_body_invalid_parameters rt post_data log :
  Py.truthy post_data = false ->
  search rt post_data log = (Returns invalid_parameters, log)
  /\ search rt post_data log = search rt JNull log
  /\ (forall field,
       search rt post_data log <> (Returns (field_required field), log)).
Proof.
  intros Hf.
  assert (E : search rt post_data log = (Returns invalid_parameters, log)).
  { unfold search. rewrite Hf. reflexivity. }
  split; [exact E | split; [rewrite E; reflexivity |]].
  intros field. rewrite E. unfold invalid_parameters, field_required.
  intros Habs. inversion Habs as [Hmsg].
  repeat (destruct field as [|? field]; simpl in Hmsg;
          [discriminate Hmsg |]; try discriminate Hmsg;
          injection Hmsg as _ Hmsg).
Qed.

(** The empty object, [false], [0], the empty string and [null] are
    falsy, as are the empty array and the float zero. *)
Lemma falsy_values :
  Forall (fun v => Py.truthy v = false)
         [JObj []; JBool false; JInt 0; JStr ""; JNull; JArr [];
          JFloat (S754_zero false)].
Proof. repeat constructor. Qed.

Lemma search_falsy_body_invalid_parameters_witness :
  Forall (fun v =>
            search (Demo.runtime []) v [] = (Returns invalid_parameters, [])
            /\ search (Demo.runtime []) v []
               <> (Returns (field_required "username"), []))
         [JObj []; JBool false; JInt 0; JStr ""; JNull].
Proof.
  repeat constructor;
    try (apply (search_falsy_body_invalid_parameters (Demo.runtime []));
         reflexivity).
Defined.







(** ** The listing call (lines 44-54 and 83, 105-110) *)

(** A body that is an object with both fields reaches the listing call
    of line 83. *)
Lemma search_reaches_listing rt members username pattern log :
  Py.lookup "username" members = Some username ->
  Py.lookup "pattern" members = Some pattern ->
  search rt (JObj members) log =
  (listing <- gists_for_user rt username ;;
   let '(is_successful, msg, data) := listing in
   if (is_successful : bool) then
     regex_pattern <- lift (py_re_compile rt pattern search_flags) ;;
     gists <- lift (py_set rt data) ;;
     match_list <- search_loop rt username regex_pattern gists [] ;;
     ret (JObj [("status", JStr "success");
                ("username", username);
                ("pattern", pattern);
                ("matches", JArr (map JStr match_list))])
   else
     ret (JObj [("status", JStr "failed");
                ("message", msg);
                ("username", username);
                ("pattern", pattern);
                ("matches", JArr [])])) log.
Proof.
  intros Hu Hp. unfold search.
  rewrite (lookup_truthy _ _ _ Hu).
  unfold Py.contains, Py.getitem.
  rewrite (lookup_has_key _ _ _ Hu), (lookup_has_key _ _ _ Hp), Hu, Hp.
  reflexivity.
Qed.


(** On status 200, [gists_for_user] returns the decoded body. *)
Lemma gists_for_user_success rt username log response data :
  http_get rt log (gists_url rt username) = Returns response ->
  status_code response = 200 ->
  json response = Returns data ->
  gists_for_user rt username log
  = (Returns (true, JStr "Successful", data), log ++ [gists_url rt username]).
Proof.
  intros Hget Hstatus Hjson.
  unfold gists_for_user, requests_get, bind, lift, ret.
  rewrite Hget, Hjson, Hstatus. reflexivity.
Qed.



(** ** The success path (lines 84-104) *)

(** Line 86 comes before the loop: an exception of [re.compile] leaves
    [search] right after the listing call. *)
Lemma search_compile_error
    rt members username pattern log response data e :
  Py.lookup "username" members = Some username ->
  Py.lookup "pattern" members = Some pattern ->
  http_get rt log (gists_url rt username) = Returns response ->
  status_code response = 200 ->
  json response = Returns data ->
  py_re_compile rt pattern search_flags = Raises e ->
  search rt (JObj members) log = (Raises e, log ++ [gists_url rt username]).
Proof.
  intros Hu Hp Hget Hstatus Hjson Hre.
  rewrite (search_reaches_listing _ _ _ _ _ Hu Hp).
  unfold bind.
  rewrite (gists_for_user_success _ _ _ _ _ Hget Hstatus Hjson).
  unfold lift. rewrite Hre. reflexivity.
Qed.

(** [set(data)] raises as soon as one element of [data] is a list or a
    dict. *)
Lemma py_set_unhashable rt items :
  forallb Py.hashable items = false ->
  py_set rt (JArr items) = Raises TypeError.
Proof. unfold py_set. simpl. intros ->. reflexivity. Qed.

Lemma unhashable_member g items :
  In g items -> Py.hashable g = false -> forallb Py.hashable items = false.
Proof.
  intros Hin Hg. destruct (forallb Py.hashable items) eqn:E; [| reflexivity].
  rewrite forallb_forall in E. rewrite (E g Hin) in Hg. discriminate.
Qed.

(** Line 87: a listing with a gist in it, a dict, makes [search] raise
    before the loop is entered, whatever the pattern matches. *)
Lemma search_listing_with_gist
    rt members username pattern log response items regex_pattern g :
  Py.lookup "username" members = Some username ->
  Py.lookup "pattern" members = Some pattern ->
  http_get rt log (gists_url rt username) = Returns response ->
  status_code response = 200 ->
  json response = Returns (JArr items) ->
  py_re_compile rt pattern search_flags = Returns regex_pattern ->
  In (JObj g) items ->
  search rt (JObj members) log
  = (Raises TypeError, log ++ [gists_url rt username]).
Proof.
  intros Hu Hp Hget Hstatus Hjson Hre Hin.
  rewrite (search_reaches_listing _ _ _ _ _ Hu Hp).
  unfold bind.
  rewrite (gists_for_user_success _ _ _ _ _ Hget Hstatus Hjson).
  unfold lift. rewrite Hre.
  rewrite (py_set_unhashable rt items
             (unhashable_member (JObj g) items Hin eq_refl)).
  reflexivity.
Qed.

(** An empty listing is answered with status "success" and no match. *)
Lemma search_empty_listing
    rt members username pattern log response regex_pattern :
  Py.lookup "username" members = Some username ->
  Py.lookup "pattern" members = Some pattern ->
  http_get rt log (gists_url rt username) = Returns response ->
  status_code response = 200 ->
  json response = Returns (JArr []) ->
  py_re_compile rt pattern search_flags = Returns regex_pattern ->
  set_order rt [] = [] ->
  search rt (JObj members) log
  = (Returns (JObj [("status", JStr "success");
                    ("username", username);
                    ("pattern", pattern);
                    ("matches", JArr [])]),
     log ++ [gists_url rt username]).
Proof.
  intros Hu Hp Hget Hstatus Hjson Hre Hempty.
  rewrite (search_reaches_listing _ _ _ _ _ Hu Hp).
  unfold bind.
  rewrite (gists_for_user_success _ _ _ _ _ Hget Hstatus Hjson).
  unfold lift. rewrite Hre. unfold py_set. simpl. rewrite Hempty.
  reflexivity.
Qed.

(** *** The loop body, lines 92-99 *)

(** An element that is not a dict cannot be subscripted with ["files"]. *)
Lemma search_gist_hashable rt username regex_pattern gist match_list log :
  Py.hashable gist = true ->
  search_gist rt username regex_pattern gist match_list log
  = (Raises TypeError, log).
Proof.
  intros Hh. unfold search_gist, bind, lift.
  destruct gist; simpl in *; try discriminate; reflexivity.
Qed.

(** The unpacking of line 92 wants exactly one file. *)
Lemma search_gist_file_count
    rt username regex_pattern members files match_list log :
  Py.lookup "files" members = Some (JObj files) ->
  List.length files <> 1%nat ->
  search_gist rt username regex_pattern (JObj members) match_list log
  = (Raises ValueError, log).
Proof.
  intros Hf Hn. unfold search_gist, bind, lift. simpl. rewrite Hf. simpl.
  destruct files as [| f [| f' files]]; simpl in *; try reflexivity.
  congruence.
Qed.

(** Lines 94-95: a fetch that answers with a status other than 200
    leaves [match_list] as it is. *)
Lemma search_gist_fetch_failure
    rt username regex_pattern members name value raw_url response
    match_list log :
  Py.lookup "files" members = Some (JObj [(name, value)]) ->
  Py.getitem value "raw_url" = Returns raw_url ->
  http_get rt log (py_str rt raw_url) = Returns response ->
  status_code response <> 200 ->
  search_gist rt username regex_pattern (JObj members) match_list log
  = (Returns match_list, log ++ [py_str rt raw_url]).
Proof.
  intros Hf Hraw Hget Hstatus.
  unfold search_gist, requests_get, bind, lift, ret. simpl.
  rewrite Hf. simpl. rewrite Hraw, Hget.
  apply Z.eqb_neq in Hstatus. rewrite Hstatus. reflexivity.
Qed.

(** Lines 95-99: after a fetch with status 200 the address of the gist
    is appended exactly when [findall] finds something. *)
Lemma search_gist_fetched
    rt username regex_pattern members name value raw_url response gist_id
    match_list log :
  Py.lookup "files" members = Some (JObj [(name, value)]) ->
  Py.getitem value "raw_url" = Returns raw_url ->
  http_get rt log (py_str rt raw_url) = Returns response ->
  status_code response = 200 ->
  Py.lookup "id" members = Some gist_id ->
  search_gist rt username regex_pattern (JObj members) match_list log
  = (Returns (match findall regex_pattern (text response) with
              | [] => match_list
              | _ => match_list ++ [gist_url rt username gist_id]
              end),
     log ++ [py_str rt raw_url]).
Proof.
  intros Hf Hraw Hget Hstatus Hid.
  unfold search_gist, requests_get, bind, lift, ret. simpl.
  rewrite Hf. simpl. rewrite Hraw, Hget, Hstatus. simpl.
  destruct (findall regex_pattern (text response)); simpl.
  - reflexivity.
  - rewrite Hid. reflexivity.
Qed.

(** The loop goes on after a gist whose fetch failed. *)
Lemma search_loop_skips_failed_fetch
    rt username regex_pattern members name value raw_url response rest
    match_list log :
  Py.lookup "files" members = Some (JObj [(name, value)]) ->
  Py.getitem value "raw_url" = Returns raw_url ->
  http_get rt log (py_str rt raw_url) = Returns response ->
  status_code response <> 200 ->
  search_loop rt username regex_pattern (JObj members :: rest) match_list log
  = search_loop rt username regex_pattern rest match_list
      (log ++ [py_str rt raw_url]).
Proof.
  intros Hf Hraw Hget Hstatus. simpl. unfold bind.
  rewrite (search_gist_fetch_failure _ _ _ _ _ _ _ _ _ _
             Hf Hraw Hget Hstatus).
  reflexivity.
Qed.

(** The loop over elements that can be in a set stops at the first. *)
Lemma search_loop_hashable rt username regex_pattern gists match_list log :
  Forall (fun g => Py.hashable g = true) gists ->
  search_loop rt username regex_pattern gists match_list log
  = match gists with
    | [] => (Returns match_list, log)
    | _ :: _ => (Raises TypeError, log)
    end.
Proof.
  intros Hall. destruct gists as [| g rest]; [reflexivity |].
  simpl. unfold bind.
  rewrite search_gist_hashable by (inversion Hall; assumption).
  reflexivity.
Qed.

Lemma dedup_incl l : incl (Py.dedup l) l.
Proof.
  induction l as [| x l IH]; simpl; [apply incl_refl |].
  intros y [<- | Hy]; [now left | right].
  apply filter_In in Hy. apply IH, Hy.
Qed.

(** What [set(data)] returns can be hashed, when a set iterates over
    its own elements. *)
Lemma py_set_hashable rt data gists :
  (forall l, incl (set_order rt l) l) ->
  py_set rt data = Returns gists ->
  Forall (fun g => Py.hashable g = true) gists.
Proof.
  intros Horder. unfold py_set.
  destruct (Py.iter data) as [items |]; [| discriminate].
  destruct (forallb Py.hashable items) eqn:E; [| discriminate].
  intros [= <-]. rewrite forallb_forall in E.
  apply Forall_forall. intros g Hg.
  apply E, dedup_incl, Horder, Hg.
Qed.

(** When [search] answers with status "success" its [matches] are
    empty: the loop returns only when the set is. *)
Lemma search_success_no_matches rt post_data log response log' :
  (forall l, incl (set_order rt l) l) ->
  search rt post_data log = (Returns response, log') ->
  Py.getitem response "status" = Returns (JStr "success") ->
  Py.getitem response "matches" = Returns (JArr []).
Proof.
  intros Horder. unfold search.
  destruct (Py.truthy post_data); [| intros [= <- _]; discriminate].
  unfold bind at 1, lift at 1.
  destruct (Py.contains "username" post_data) as [[|] |];
    simpl; try discriminate; [| intros [= <- _]; discriminate].
  unfold bind at 1, lift at 1.
  destruct (Py.contains "pattern" post_data) as [[|] |];
    simpl; try discriminate; [| intros [= <- _]; discriminate].
  unfold bind at 1, lift at 1.
  destruct (Py.getitem post_data "username") as [username |];
    [| discriminate].
  unfold bind at 1, lift at 1.
  destruct (Py.getitem post_data "pattern") as [pattern |];
    [| discriminate].
  unfold bind at 1.
  destruct (gists_for_user rt username log) as [[[[ok msg] data] |] log1];
    [| discriminate].
  destruct ok; [| intros [= <- _]; discriminate].
  unfold bind at 1, lift at 1.
  destruct (py_re_compile rt pattern search_flags) as [regex_pattern |];
    [| discriminate].
  unfold bind at 1, lift at 1.
  destruct (py_set rt data) as [gists |] eqn:Hset; [| discriminate].
  unfold bind at 1.
  rewrite (search_loop_hashable _ _ _ _ _ _
             (py_set_hashable _ _ _ Horder Hset)).
  destruct gists; [| discriminate].
  intros [= <- _] _. reflexivity.
Qed.

(** ** The handler on concrete requests *)

(** C1: the pattern ["["], an unterminated bracket set, with a listing
    that succeeds: [re.compile] raises at line 86 and the exception
    leaves [search]; no response with status "failed" is built. *)
Theorem search_unbalanced_bracket_escapes :
  Re.parse "[" = Re.Malformed
  /\ search (Demo.runtime (Demo.pages (JArr [])))
            (Demo.request "octocat" "[") []
     = (Raises re_error, [Demo.listing_url]).
Proof. split; reflexivity. Qed.

(** C2: a listing with a gist that has no file, or two: [search] raises
    at line 87, and the loop body, given such a gist, raises at the
    unpacking of line 92. *)
Theorem search_file_count_raises :
  search (Demo.runtime (Demo.pages (JArr [Demo.gist_empty])))
         (Demo.request "octocat" "foo") []
  = (Raises TypeError, [Demo.listing_url])
  /\ search (Demo.runtime (Demo.pages (JArr [Demo.gist_two])))
            (Demo.request "octocat" "foo") []
     = (Raises TypeError, [Demo.listing_url])
  /\ (forall rt username regex_pattern match_list log,
        search_gist rt username regex_pattern Demo.gist_empty match_list log
        = (Raises ValueError, log)
        /\ search_gist rt username regex_pattern Demo.gist_two match_list log
           = (Raises ValueError, log)).
Proof.
  split; [reflexivity | split; [reflexivity |]].
  intros. split.
  - apply (search_gist_file_count _ _ _ _ []); [reflexivity | discriminate].
  - eapply search_gist_file_count; [reflexivity | discriminate].
Qed.

(** C3: a listing with the same gist twice: [set(data)] of line 87
    raises on the first dict, so nothing is deduplicated and no response
    is returned. *)
Theorem search_duplicate_gists_raises :
  search (Demo.runtime (Demo.pages (JArr [Demo.gist_a; Demo.gist_a])))
         (Demo.request "octocat" "^foo$") []
  = (Raises TypeError, [Demo.listing_url])
  /\ py_set (Demo.runtime []) (JArr [Demo.gist_a; Demo.gist_a])
     = Raises TypeError.
Proof. split; reflexivity. Qed.


(** C6: a listing with the one gist C, whose content is answered with
    404: [search] raises at line 87 instead of skipping the gist,
    although the loop body, given C, leaves [match_list] as it is. *)
Theorem search_unfetchable_gist_raises :
  search (Demo.runtime (Demo.pages (JArr [Demo.gist_c])))
         (Demo.request "octocat" "foo") []
  = (Raises TypeError, [Demo.listing_url])
  /\ (forall username regex_pattern match_list,
        search_gist (Demo.runtime (Demo.pages (JArr [Demo.gist_c])))
          username regex_pattern Demo.gist_c match_list [Demo.listing_url]
        = (Returns match_list, [Demo.listing_url; Demo.raw "c.txt"])).
Proof.
  split; [reflexivity |].
  intros.
  apply (search_gist_fetch_failure _ _ _ _ "c.txt"
           (JObj [("raw_url", JStr (Demo.raw "c.txt"))])
           (JStr (Demo.raw "c.txt")) Demo.not_found);
    try reflexivity.
  simpl. lia.
Qed.

(** ** The flags of line 86 on the fragment of [re] *)

(** *** Letter case *)









Section Caseless.

Variable ok : ascii -> bool.
Hypothesis ok_caseless :
  forall a b, Re.lower a = Re.lower b -> ok a = ok b.



End Caseless.





(** *** Line boundaries *)












(** *** The rounds of [findall] *)

Lemma once_consumes ok k p e :
  Re.once ok k p = Some e ->
  exists p', k p' = Some e
             /\ (List.length (snd p') < List.length (snd p))%nat.
Proof.
  unfold Re.once. destruct (snd p) as [| c after]; [discriminate |].
  destruct (ok c); [| discriminate].
  intros H. eexists. split; [exact H |]. simpl. lia.
Qed.

Lemma star_consumes ok k after :
  forall before e,
  Re.star ok k before after = Some e ->
  exists p', k p' = Some e
             /\ (List.length (snd p') <= List.length after)%nat.
Proof.
  induction after as [| c after IH]; intros before e; simpl.
  - intros H. eexists. split; [exact H |]. simpl. lia.
  - destruct (ok c).
    + destruct (Re.star ok k (c :: before) after) as [e' |] eqn:E.
      * intros [= <-]. destruct (IH _ _ E) as [p' [Hk Hlen]].
        exists p'. split; [exact Hk | lia].
      * intros H. eexists. split; [exact H |]. simpl. lia.
    + intros H. eexists. split; [exact H |]. simpl. lia.
Qed.

Lemma match_items_consumes ic ml items :
  forall k p e,
  Re.match_items ic ml items k p = Some e ->
  exists p', k p' = Some e
             /\ (List.length (snd p') <= List.length (snd p))%nat.
Proof.
  induction items as [| item rest IH]; intros k p e; simpl.
  - intros H. exists p. split; [exact H | lia].
  - destruct item as [| | cls quant].
    + destruct (Re.at_bol ml p); [apply IH | discriminate].
    + destruct (Re.at_eol ml p); [apply IH | discriminate].
    + destruct quant.
      * intros H. apply once_consumes in H as [p1 [H Hlt]].
        apply IH in H as [p' [Hk Hle]].
        exists p'. split; [exact Hk | lia].
      * destruct (Re.once (Re.class_matches ic cls)
                    (Re.match_items ic ml rest k) p) as [e' |] eqn:E.
        -- intros [= <-]. apply once_consumes in E as [p1 [H Hlt]].
           apply IH in H as [p' [Hk Hle]].
           exists p'. split; [exact Hk | lia].
        -- apply IH.
      * intros H. apply star_consumes in H as [p1 [H Hle1]].
        apply IH in H as [p' [Hk Hle]].
        exists p'. split; [exact Hk | lia].
      * intros H. apply once_consumes in H as [p1 [H Hlt]].
        apply star_consumes in H as [p2 [H Hle2]].
        apply IH in H as [p' [Hk Hle]].
        exists p'. split; [exact Hk | lia].
Qed.

(** A match ends at or after its start, and after it when it must
    advance. *)
Lemma match_at_consumes ic ml r must_advance p e :
  Re.match_at ic ml r must_advance p = Some e ->
  (List.length (snd e) <= List.length (snd p))%nat
  /\ (must_advance = true ->
      (List.length (snd e) < List.length (snd p))%nat).
Proof.
  induction r as [| branch others IH]; simpl; [discriminate |].
  destruct (Re.match_items ic ml branch (Re.accept must_advance p) p)
    as [e' |] eqn:E; [| exact IH].
  intros [= <-].
  apply match_items_consumes in E as [p' [Hacc Hle]].
  unfold Re.accept in Hacc.
  destruct (must_advance
            && (List.length (snd p') =? List.length (snd p))%nat)%bool
    eqn:Hm; [discriminate |].
  injection Hacc as <-. split; [exact Hle |].
  intros ->. simpl in Hm. apply Nat.eqb_neq in Hm. lia.
Qed.

Lemma search_from_bounds ic ml r after :
  forall must_advance before s e,
  Re.search_from ic ml r must_advance before after = Some (s, e) ->
  (List.length (snd e) <= List.length (snd s))%nat
  /\ (List.length (snd s) <= List.length after)%nat
  /\ (must_advance = true ->
      List.length (snd e) = List.length (snd s) ->
      (List.length (snd s) < List.length after)%nat).
Proof.
  induction after as [| c after IH]; intros must_advance before s e; simpl.
  - destruct (Re.match_at ic ml r must_advance (before, [])) as [e' |] eqn:E;
      [| discriminate].
    intros [= <- <-]. apply match_at_consumes in E as [Hle Hlt].
    simpl in *. repeat split; try lia.
    intros Hm. specialize (Hlt Hm). lia.
  - destruct (Re.match_at ic ml r must_advance (before, c :: after))
      as [e' |] eqn:E.
    + intros [= <- <-]. apply match_at_consumes in E as [Hle Hlt].
      simpl in *. repeat split; try lia.
      intros Hm. specialize (Hlt Hm). lia.
    + intros H. apply IH in H as (Hle & Hs & _).
      repeat split; try lia.
Qed.

(** With fuel for the rounds that are left, more fuel changes
    nothing: [findall] is not cut short. *)
Lemma findall_from_enough_fuel ic ml r fuel1 :
  forall fuel2 (must_advance : bool) before (after : list ascii),
  (2 * List.length after + (if must_advance then 1 else 2) <= fuel1)%nat ->
  (2 * List.length after + (if must_advance then 1 else 2) <= fuel2)%nat ->
  Re.findall_from ic ml fuel1 r must_advance before after
  = Re.findall_from ic ml fuel2 r must_advance before after.
Proof.
  induction fuel1 as [| fuel1 IH];
    intros fuel2 must_advance before after H1 H2.
  - destruct must_advance; lia.
  - destruct fuel2 as [| fuel2]; [destruct must_advance; lia |].
    simpl.
    destruct (Re.search_from ic ml r must_advance before after)
      as [[s e] |] eqn:E; [| reflexivity].
    apply search_from_bounds in E as (Hle & Hs & Hadv).
    f_equal.
    destruct (List.length (snd s) - List.length (snd e) =? 0)%nat eqn:Hn.
    + apply Nat.eqb_eq in Hn.
      assert (Heq : List.length (snd e) = List.length (snd s)) by lia.
      destruct must_advance.
      * specialize (Hadv eq_refl Heq). apply IH; lia.
      * apply IH; lia.
    + apply Nat.eqb_neq in Hn. apply IH; destruct must_advance; lia.
Qed.

Lemma length_list_ascii_of_string text :
  List.length (list_ascii_of_string text) = String.length text.
Proof. induction text as [| c text IH]; simpl; [| rewrite IH]; reflexivity. Qed.

Lemma findall_regex_fuel ic ml r text fuel :
  (2 * String.length text + 2 <= fuel)%nat ->
  Re.findall_regex ic ml r text
  = Re.findall_from ic ml fuel r false [] (list_ascii_of_string text).
Proof.
  intros Hfuel. unfold Re.findall_regex.
  apply findall_from_enough_fuel;
    rewrite length_list_ascii_of_string; lia.
Qed.

(** ** More on [gists_for_user] (lines 44-54) *)

(** X1: [gists_for_user] makes exactly one outbound call, to the listing
    address of the user, whether it returns or raises; when it returns,
    the third component is the decoded body, the flag tells whether the
    status was 200, and the message is ["Successful"] on 200 and the
    [message] of the body otherwise. *)
Theorem gists_for_user_one_call rt username log :
  snd (gists_for_user rt username log) = log ++ [gists_url rt username]
  /\ forall ok msg data,
       fst (gists_for_user rt username log) = Returns (ok, msg, data) ->
       exists response,
         http_get rt log (gists_url rt username) = Returns response
         /\ json response = Returns data
         /\ ok = (status_code response =? 200)
         /\ (if ok then msg = JStr "Successful"
             else Py.getitem data "message" = Returns msg).
Proof.
  unfold gists_for_user, requests_get, bind, lift, ret.
  destruct (http_get rt log (gists_url rt username)) as [response |];
    [| split; [reflexivity | discriminate]].
  destruct (json response) as [data |] eqn:Hjson;
    [| split; [reflexivity | discriminate]].
  destruct (status_code response =? 200) eqn:Hstatus.
  - split; [reflexivity |]. simpl. intros ok msg data' [= <- <- <-].
    exists response. rewrite Hstatus. repeat split. exact Hjson.
  - destruct (Py.getitem data "message") as [message |] eqn:Hmsg;
      (split; [reflexivity |]); [| discriminate].
    simpl. intros ok msg data' [= <- <- <-].
    exists response. rewrite Hstatus. repeat split; assumption.
Qed.

(** X2: when the listing call answers with a status other than 200 and
    a body that has no [message] (an object without that key, or a
    value that is not an object), line 54 raises, [KeyError] or
    [TypeError], and the exception leaves [search] after the one
    outbound call: no "failed" response is built. *)
Theorem search_listing_failure_without_message
    rt members username pattern log response error_body :
  Py.lookup "username" members = Some username ->
  Py.lookup "pattern" members = Some pattern ->
  http_get rt log (gists_url rt username) = Returns response ->
  status_code response <> 200 ->
  json response = Returns error_body ->
  has_field "message" error_body = false ->
  search rt (JObj members) log
  = (Raises (match error_body with JObj _ => KeyError | _ => TypeError end),
     log ++ [gists_url rt username]).
Proof.
  intros Hu Hp Hget Hstatus Hjson Hmsg.
  rewrite (search_reaches_listing _ _ _ _ _ Hu Hp).
  unfold gists_for_user, requests_get, bind, lift, ret.
  rewrite Hget, Hjson. apply Z.eqb_neq in Hstatus. rewrite Hstatus.
  destruct error_body; try reflexivity.
  simpl in *. unfold Py.has_key in Hmsg.
  destruct (Py.lookup "message" members0); [discriminate | reflexivity].
Qed.

Lemma search_listing_failure_without_message_witness :
  search (Demo.runtime
            [(Demo.listing_url,
              {| status_code := 500; json := Returns (JObj []);
                 text := "" |})])
         (Demo.request "octocat" "foo") []
  = (Raises KeyError, [Demo.listing_url]).
Proof.
  refine (search_listing_failure_without_message
            (Demo.runtime
               [(Demo.listing_url,
                 {| status_code := 500; json := Returns (JObj []);
                    text := "" |})])
            [("username", JStr "octocat"); ("pattern", JStr "foo")]
            (JStr "octocat") (JStr "foo") []
            {| status_code := 500; json := Returns (JObj []); text := "" |}
            (JObj []) eq_refl eq_refl eq_refl _ eq_refl eq_refl).
  simpl. lia.
Defined.

(** X3: the body of the listing answer is decoded at line 51, before the
    status is looked at: when the call itself raises, or when the body
    cannot be decoded, whatever the status, the exception leaves
    [search] after the one outbound call. *)
Theorem search_listing_call_raises rt members username pattern log e :
  Py.lookup "username" members = Some username ->
  Py.lookup "pattern" members = Some pattern ->
  http_get rt log (gists_url rt username) = Raises e
  \/ (exists response,
        http_get rt log (gists_url rt username) = Returns response
        /\ json response = Raises e) ->
  search rt (JObj members) log = (Raises e, log ++ [gists_url rt username]).
Proof.
  intros Hu Hp Hfail.
  rewrite (search_reaches_listing _ _ _ _ _ Hu Hp).
  unfold gists_for_user, requests_get, bind, lift, ret.
  destruct Hfail as [-> | [response [-> ->]]]; reflexivity.
Qed.

Lemma search_listing_call_raises_witness :
  search (Demo.runtime []) (Demo.request "octocat" "foo") []
  = (Raises RequestException, [Demo.listing_url])
  /\ search (Demo.runtime [(Demo.listing_url, Demo.ok_text "<html>")])
            (Demo.request "octocat" "foo") []
     = (Raises JSONDecodeError, [Demo.listing_url]).
Proof.
  split.
  - refine (search_listing_call_raises (Demo.runtime [])
              [("username", JStr "octocat"); ("pattern", JStr "foo")]
              (JStr "octocat") (JStr "foo") [] RequestException
              eq_refl eq_refl (or_introl eq_refl)).
  - refine (search_listing_call_raises
              (Demo.runtime [(Demo.listing_url, Demo.ok_text "<html>")])
              [("username", JStr "octocat"); ("pattern", JStr "foo")]
              (JStr "octocat") (JStr "foo") [] JSONDecodeError
              eq_refl eq_refl
              (or_intror (ex_intro _ (Demo.ok_text "<html>")
                            (conj eq_refl eq_refl)))).
Defined.

(** ** More on [search]: which calls it makes *)

Lemma gists_for_user_log rt username log :
  snd (gists_for_user rt username log) = log ++ [gists_url rt username].
Proof.
  unfold gists_for_user, requests_get, bind, lift, ret.
  destruct (http_get rt log (gists_url rt username)) as [response |];
    [| reflexivity].
  destruct (json response) as [data |]; [| reflexivity].
  destruct (status_code response =? 200); [reflexivity |].
  destruct (Py.getitem data "message"); reflexivity.
Qed.

(** At most one outbound call for each gist of the loop. *)
Lemma search_gist_log rt username regex_pattern gist match_list log :
  snd (search_gist rt username regex_pattern gist match_list log) = log
  \/ exists url,
       snd (search_gist rt username regex_pattern gist match_list log)
       = log ++ [url].
Proof.
  unfold search_gist, requests_get, bind, lift, ret.
  destruct (Py.getitem gist "files") as [files |]; [| now left].
  destruct (Py.values files) as [file_values |]; [| now left].
  destruct (Py.unpack1 file_values) as [value |]; [| now left].
  destruct (Py.getitem value "raw_url") as [raw_url |]; [| now left].
  right. exists (py_str rt raw_url).
  destruct (http_get rt log (py_str rt raw_url)) as [response |];
    [| reflexivity].
  destruct (status_code response =? 200); [| reflexivity].
  destruct (0 <? _); [| reflexivity].
  destruct (Py.getitem gist "id"); reflexivity.
Qed.

(** The loop only adds to the log. *)
Lemma search_loop_log rt username regex_pattern gists :
  forall match_list log,
  exists calls,
    snd (search_loop rt username regex_pattern gists match_list log)
    = log ++ calls.
Proof.
  induction gists as [| gist rest IH]; intros match_list log; simpl.
  - exists []. now rewrite app_nil_r.
  - unfold bind.
    pose proof (search_gist_log rt username regex_pattern gist match_list log)
      as Hone.
    destruct (search_gist rt username regex_pattern gist match_list log)
      as [[match_list' |] log1]; simpl in Hone.
    + destruct (IH match_list' log1) as [calls Hcalls].
      destruct Hone as [-> | [url ->]].
      * exists calls. exact Hcalls.
      * exists (url :: calls). rewrite Hcalls, <- app_assoc. reflexivity.
    + destruct Hone as [-> | [url ->]].
      * exists []. now rewrite app_nil_r.
      * exists [url]. reflexivity.
Qed.

(** The bodies that do not reach line 83: every one is answered, or
    raises, without an outbound call. *)
Lemma search_cases rt post_data log :
  search rt post_data log = (Returns invalid_parameters, log)
  \/ search rt post_data log = (Returns (field_required "username"), log)
  \/ search rt post_data log = (Returns (field_required "pattern"), log)
  \/ search rt post_data log = (Raises TypeError, log)
  \/ exists members username pattern,
       post_data = JObj members
       /\ Py.lookup "username" members = Some username
       /\ Py.lookup "pattern" members = Some pattern.
Proof.
  destruct (Py.truthy post_data) eqn:Ht;
    [| left; unfold search; rewrite Ht; reflexivity].
  right.
  destruct (is_container post_data) eqn:Hc;
    [| right; right; left; now apply search_not_a_container].
  destruct (Py.contains "username" post_data) as [[|] |] eqn:Hu.
  - destruct (Py.contains "pattern" post_data) as [[|] |] eqn:Hp.
    + right. right. destruct post_data; try discriminate.
      * left. unfold search, bind, lift. rewrite Ht, Hu. cbn [negb].
        rewrite Hp. reflexivity.
      * left. unfold search, bind, lift. rewrite Ht, Hu. cbn [negb].
        rewrite Hp. reflexivity.
      * right. simpl in Hu, Hp. injection Hu as Hu. injection Hp as Hp.
        unfold Py.has_key in Hu, Hp.
        destruct (Py.lookup "username" members) as [username |] eqn:Eu;
          [| discriminate].
        destruct (Py.lookup "pattern" members) as [pattern |] eqn:Ep;
          [| discriminate].
        exists members, username, pattern. repeat split; assumption.
    + right. left. now apply search_without_pattern.
    + destruct post_data; discriminate.
  - left. now apply search_without_username.
  - destruct post_data; discriminate.
Qed.

(** X4: a truthy body that is an array or a string and contains both
    ["username"] and ["pattern"] (as elements, as substrings) passes the
    two tests of lines 72-76 and makes line 78 raise [TypeError]; no
    outbound call is made. *)
Theorem search_body_not_an_object rt post_data log :
  Py.truthy post_data = true ->
  (forall members, post_data <> JObj members) ->
  Py.contains "username" post_data = Returns true ->
  Py.contains "pattern" post_data = Returns true ->
  search rt post_data log = (Raises TypeError, log).
Proof.
  intros Ht Hobj Hu Hp. unfold search, bind, lift.
  rewrite Ht, Hu. cbn [negb]. rewrite Hp. cbn [negb].
  destruct post_data; try discriminate; try reflexivity.
  exfalso. apply (Hobj members). reflexivity.
Qed.

Lemma search_body_not_an_object_witness :
  search (Demo.runtime []) (JArr [JStr "username"; JStr "pattern"]) []
  = (Raises TypeError, [])
  /\ search (Demo.runtime []) (JStr "my username and pattern") []
     = (Raises TypeError, []).
Proof.
  split.
  - apply (search_body_not_an_object (Demo.runtime [])
             (JArr [JStr "username"; JStr "pattern"]) []);
      try reflexivity; discriminate.
  - apply (search_body_not_an_object (Demo.runtime [])
             (JStr "my username and pattern") []);
      try reflexivity; discriminate.
Defined.

(** X5: [search] only adds to the log of outbound calls, and it makes a
    call only for a body that is an object with both fields; its first
    call is then to the listing address of the [username] given. *)
Theorem search_calls_need_both_fields rt post_data log :
  exists calls,
    snd (search rt post_data log) = log ++ calls
    /\ (calls = []
        \/ exists members username pattern,
             post_data = JObj members
             /\ Py.lookup "username" members = Some username
             /\ Py.lookup "pattern" members = Some pattern
             /\ hd_error calls = Some (gists_url rt username)).
Proof.
  destruct (search_cases rt post_data log)
    as [H | [H | [H | [H | (members & username & pattern & -> & Hu & Hp)]]]];
    try (exists []; rewrite H, app_nil_r; split; [reflexivity | now left]).
  rewrite (search_reaches_listing _ _ _ _ _ Hu Hp). unfold bind.
  pose proof (gists_for_user_log rt username log) as Hone.
  destruct (gists_for_user rt username log) as [[[[ok msg] data] |] log1];
    simpl in Hone; subst log1.
  - destruct ok.
    + unfold lift.
      destruct (py_re_compile rt pattern search_flags) as [regex_pattern |].
      * destruct (py_set rt data) as [gists |].
        -- destruct (search_loop_log rt username regex_pattern gists []
                       (log ++ [gists_url rt username])) as [calls Hcalls].
           exists (gists_url rt username :: calls). split.
           ++ destruct (search_loop rt username regex_pattern gists []
                          (log ++ [gists_url rt username]))
                as [[match_list |] log2]; simpl in *; subst log2;
                rewrite <- app_assoc; reflexivity.
           ++ right. exists members, username, pattern. repeat split;
                assumption.
        -- exists [gists_url rt username]. split; [reflexivity |].
           right. exists members, username, pattern. repeat split;
             assumption.
      * exists [gists_url rt username]. split; [reflexivity |].
        right. exists members, username, pattern. repeat split; assumption.
    + exists [gists_url rt username]. split; [reflexivity |].
      right. exists members, username, pattern. repeat split; assumption.
  - exists [gists_url rt username]. split; [reflexivity |].
    right. exists members, username, pattern. repeat split; assumption.
Qed.

(** X6: in a runtime where a set iterates over elements of its own,
    [search] makes at most one outbound call, the listing call: the
    content of a gist is never requested. *)
Theorem search_at_most_one_call rt post_data log :
  (forall l, incl (set_order rt l) l) ->
  snd (search rt post_data log) = log
  \/ exists username,
       Py.getitem post_data "username" = Returns username
       /\ snd (search rt post_data log) = log ++ [gists_url rt username].
Proof.
  intros Horder.
  destruct (search_cases rt post_data log)
    as [H | [H | [H | [H | (members & username & pattern & -> & Hu & Hp)]]]];
    try (left; rewrite H; reflexivity).
  right. exists username. split; [simpl; rewrite Hu; reflexivity |].
  rewrite (search_reaches_listing _ _ _ _ _ Hu Hp). unfold bind.
  pose proof (gists_for_user_log rt username log) as Hone.
  destruct (gists_for_user rt username log) as [[[[ok msg] data] |] log1];
    simpl in Hone; subst log1; [| reflexivity].
  destruct ok; [| reflexivity].
  unfold lift.
  destruct (py_re_compile rt pattern search_flags) as [regex_pattern |];
    [| reflexivity].
  destruct (py_set rt data) as [gists |] eqn:Hset; [| reflexivity].
  rewrite (search_loop_hashable _ _ _ _ _ _
             (py_set_hashable _ _ _ Horder Hset)).
  destruct gists; reflexivity.
Qed.

Lemma search_at_most_one_call_witness :
  snd (search (Demo.runtime
                 (Demo.pages (JArr [Demo.gist_a; Demo.gist_b; Demo.gist_c])))
              (Demo.request "octocat" "^foo$") [])
  = [Demo.listing_url].
Proof.
  destruct (search_at_most_one_call
              (Demo.runtime
                 (Demo.pages (JArr [Demo.gist_a; Demo.gist_b; Demo.gist_c])))
              (Demo.request "octocat" "^foo$") [] (fun l => incl_refl l))
    as [H | [username [Hu H]]].
  - reflexivity.
  - reflexivity.
Defined.

(** What [set(data)] gives in a runtime where a set iterates over its
    elements, each once: nothing when nothing is listed, and otherwise
    an exception or at least one element, none of them a dict. *)
Lemma py_set_cases rt data :
  (forall l, Permutation (set_order rt l) l) ->
  (nothing_listed data = true /\ py_set rt data = Returns [])
  \/ (nothing_listed data = false
      /\ (py_set rt data = Raises TypeError
          \/ exists g gists,
               py_set rt data = Returns (g :: gists)
               /\ Forall (fun x => Py.hashable x = true) (g :: gists))).
Proof.
  intros Hperm.
  assert (Hincl : forall l, incl (set_order rt l) l).
  { intros l x Hx. apply (Permutation_in x (Hperm l)), Hx. }
  pose proof (py_set_hashable rt data) as Hhash.
  unfold nothing_listed, py_set in *.
  destruct (Py.iter data) as [[| x items] | e] eqn:Hiter.
  - left. split; [reflexivity |]. simpl.
    rewrite (Permutation_nil (Permutation_sym (Hperm []))). reflexivity.
  - right. split; [reflexivity |].
    destruct (forallb Py.hashable (x :: items)); [| now left].
    right.
    destruct (set_order rt (Py.dedup (x :: items))) as [| g gists] eqn:Hset.
    + exfalso. pose proof (Hperm (Py.dedup (x :: items))) as Hp.
      rewrite Hset in Hp. simpl in Hp.
      exact (Permutation_nil_cons Hp).
    + exists g, gists. split; [reflexivity |].
      apply (Hhash (g :: gists) Hincl). reflexivity.
  - right. split; [reflexivity |]. left.
    destruct data; simpl in Hiter; try discriminate;
      injection Hiter as <-; reflexivity.
Qed.

(** X7: once the listing succeeded and the pattern compiled, in a
    runtime where a set iterates over its elements, each once, [search]
    has two outcomes only: status "success" with no match when nothing
    is listed ([[]], [{}], [""]), and [TypeError] for every other
    listing. *)
Theorem search_success_or_type_error
    rt members username pattern log response data regex_pattern :
  (forall l, Permutation (set_order rt l) l) ->
  Py.lookup "username" members = Some username ->
  Py.lookup "pattern" members = Some pattern ->
  http_get rt log (gists_url rt username) = Returns response ->
  status_code response = 200 ->
  json response = Returns data ->
  py_re_compile rt pattern search_flags = Returns regex_pattern ->
  search rt (JObj members) log
  = (if nothing_listed data
     then Returns (JObj [("status", JStr "success");
                         ("username", username);
                         ("pattern", pattern);
                         ("matches", JArr [])])
     else Raises TypeError,
     log ++ [gists_url rt username]).
Proof.
  intros Hperm Hu Hp Hget Hstatus Hjson Hre.
  rewrite (search_reaches_listing _ _ _ _ _ Hu Hp). unfold bind.
  rewrite (gists_for_user_success _ _ _ _ _ Hget Hstatus Hjson).
  unfold lift. rewrite Hre.
  destruct (py_set_cases rt data Hperm)
    as [[-> ->] | [-> [-> | (g & gists & -> & Hhash)]]];
    try reflexivity.
  rewrite (search_loop_hashable _ _ _ _ _ _ Hhash). reflexivity.
Qed.

Lemma search_success_or_type_error_witness :
  search (Demo.runtime (Demo.pages (JArr [])))
         (Demo.request "octocat" "foo") []
  = (Returns (JObj [("status", JStr "success");
                    ("username", JStr "octocat");
                    ("pattern", JStr "foo");
                    ("matches", JArr [])]),
     [Demo.listing_url])
  /\ search (Demo.runtime (Demo.pages (JArr [JStr "aaa"])))
            (Demo.request "octocat" "foo") []
     = (Raises TypeError, [Demo.listing_url]).
Proof.
  split.
  - refine (search_success_or_type_error
              (Demo.runtime (Demo.pages (JArr [])))
              [("username", JStr "octocat"); ("pattern", JStr "foo")]
              (JStr "octocat") (JStr "foo") []
              (Demo.ok_json (JArr [])) (JArr []) _
              (fun l => Permutation_refl l)
              eq_refl eq_refl eq_refl eq_refl eq_refl eq_refl).
  - refine (search_success_or_type_error
              (Demo.runtime (Demo.pages (JArr [JStr "aaa"])))
              [("username", JStr "octocat"); ("pattern", JStr "foo")]
              (JStr "octocat") (JStr "foo") []
              (Demo.ok_json (JArr [JStr "aaa"])) (JArr [JStr "aaa"]) _
              (fun l => Permutation_refl l)
              eq_refl eq_refl eq_refl eq_refl eq_refl eq_refl).
Defined.

(** ** More on [search]: what it answers *)

(** X8: every response [search] returns has one of five shapes: the
    "Invalid parameters" response, one of the two field-required
    responses, a "failed" response with a message, or a "success"
    response; the last two carry the [username] and the [pattern] of
    the body unchanged, and [matches], a list of strings that is empty
    in a "failed" response. *)
Theorem search_response_shape rt post_data log response log' :
  search rt post_data log = (Returns response, log') ->
  response = invalid_parameters
  \/ response = field_required "username"
  \/ response = field_required "pattern"
  \/ exists username pattern,
       Py.getitem post_data "username" = Returns username
       /\ Py.getitem post_data "pattern" = Returns pattern
       /\ ((exists message,
              response = JObj [("status", JStr "failed");
                               ("message", message);
                               ("username", username);
                               ("pattern", pattern);
                               ("matches", JArr [])])
           \/ (exists match_list,
                 response = JObj [("status", JStr "success");
                                  ("username", username);
                                  ("pattern", pattern);
                                  ("matches", JArr (map JStr match_list))])).
Proof.
  destruct (search_cases rt post_data log)
    as [H | [H | [H | [H | (members & username & pattern & -> & Hu & Hp)]]]];
    try (rewrite H; intros [= <- _]; auto; fail).
  rewrite (search_reaches_listing _ _ _ _ _ Hu Hp). unfold bind.
  intros Hrun. right. right. right. exists username, pattern.
  split; [simpl; rewrite Hu; reflexivity |].
  split; [simpl; rewrite Hp; reflexivity |].
  destruct (gists_for_user rt username log) as [[[[ok msg] data] |] log1];
    [| discriminate].
  destruct ok.
  - right. unfold lift in Hrun.
    destruct (py_re_compile rt pattern search_flags) as [regex_pattern |];
      [| discriminate].
    destruct (py_set rt data) as [gists |]; [| discriminate].
    destruct (search_loop rt username regex_pattern gists [] log1)
      as [[match_list |] log2]; [| discriminate].
    injection Hrun as <- _. exists match_list. reflexivity.
  - left. injection Hrun as <- _. exists msg. reflexivity.
Qed.

Lemma search_response_shape_witness :
  exists username pattern,
    Py.getitem (Demo.request "octocat" "foo") "username" = Returns username
    /\ Py.getitem (Demo.request "octocat" "foo") "pattern" = Returns pattern
    /\ ((exists message,
           JObj [("status", JStr "failed");
                 ("message", JStr "Not Found");
                 ("username", JStr "octocat");
                 ("pattern", JStr "foo");
                 ("matches", JArr [])]
           = JObj [("status", JStr "failed");
                   ("message", message);
                   ("username", username);
                   ("pattern", pattern);
                   ("matches", JArr [])])
        \/ (exists match_list,
              JObj [("status", JStr "failed");
                    ("message", JStr "Not Found");
                    ("username", JStr "octocat");
                    ("pattern", JStr "foo");
                    ("matches", JArr [])]
              = JObj [("status", JStr "success");
                      ("username", username);
                      ("pattern", pattern);
                      ("matches", JArr (map JStr match_list))])).
Proof.
  destruct (search_response_shape
              (Demo.runtime [(Demo.listing_url, Demo.not_found)])
              (Demo.request "octocat" "foo") [] _ _ eq_refl)
    as [H | [H | [H | H]]]; try discriminate H.
  exact H.
Defined.

(** X9: a [pattern] that is not a string (a number, [null], a list) is
    accepted by the validation and, once the listing succeeded, makes
    [re.compile] raise [TypeError] at line 86, after the one outbound
    call. *)
Theorem search_pattern_not_a_string
    rt members username pattern log response data :
  Py.lookup "username" members = Some username ->
  Py.lookup "pattern" members = Some pattern ->
  (forall p, pattern <> JStr p) ->
  http_get rt log (gists_url rt username) = Returns response ->
  status_code response = 200 ->
  json response = Returns data ->
  search rt (JObj members) log
  = (Raises TypeError, log ++ [gists_url rt username]).
Proof.
  intros Hu Hp Hstr Hget Hstatus Hjson.
  apply (search_compile_error _ _ _ _ _ _ _ _ Hu Hp Hget Hstatus Hjson).
  destruct pattern; try reflexivity.
  exfalso. apply (Hstr s). reflexivity.
Qed.

Lemma search_pattern_not_a_string_witness :
  search (Demo.runtime (Demo.pages (JArr [])))
         (JObj [("username", JStr "octocat"); ("pattern", JInt 5)]) []
  = (Raises TypeError, [Demo.listing_url]).
Proof.
  refine (search_pattern_not_a_string
            (Demo.runtime (Demo.pages (JArr [])))
            [("username", JStr "octocat"); ("pattern", JInt 5)]
            (JStr "octocat") (JInt 5) []
            (Demo.ok_json (JArr [])) (JArr [])
            eq_refl eq_refl _ eq_refl eq_refl eq_refl).
  discriminate.
Defined.

(** ** More on the loop (lines 87-99) *)

(** X10: run over gists that each have an [id] and exactly one file, in
    a runtime whose answers do not depend on earlier calls, the loop
    fetches the file of every gist once, in the order of the sequence,
    and adds to [match_list] the public addresses of the gists whose
    fetch had status 200 and whose content the pattern matched, in that
    same order; the other gists are passed over. *)
Theorem search_loop_collects rt page username regex_pattern gists fetched :
  (forall log url, http_get rt log url = page url) ->
  Forall2 (describes rt page username) gists fetched ->
  forall match_list log,
  search_loop rt username regex_pattern gists match_list log
  = (Returns (match_list
              ++ map public_address (filter (matched regex_pattern) fetched)),
     log ++ map raw_address fetched).
Proof.
  intros Hpage Hall.
  induction Hall as [| gist g gists fetched Hg Hrest IH];
    intros match_list log; simpl.
  - rewrite !app_nil_r. reflexivity.
  - destruct Hg as (members & name & value & raw_url & gist_id
                    & -> & Hf & Hraw & Hid & Haddr & Hans & Hpub).
    unfold bind. rewrite Haddr in Hans. rewrite <- (Hpage log) in Hans.
    unfold matched at 1.
    destruct (status_code (answer g) =? 200) eqn:Hstatus.
    + apply Z.eqb_eq in Hstatus.
      rewrite (search_gist_fetched _ _ _ _ _ _ _ _ _ _ _
                 Hf Hraw Hans Hstatus Hid).
      rewrite IH, Haddr, <- app_assoc. simpl.
      destruct (findall regex_pattern (text (answer g))); simpl.
      * reflexivity.
      * rewrite <- app_assoc, Hpub. reflexivity.
    + apply Z.eqb_neq in Hstatus.
      rewrite (search_gist_fetch_failure _ _ _ _ _ _ _ _ _ _
                 Hf Hraw Hans Hstatus).
      rewrite IH, Haddr, <- app_assoc. reflexivity.
Qed.

Lemma search_loop_collects_witness :
  exists regex_pattern,
    re_compile (Demo.runtime []) "^foo$" search_flags = Returns regex_pattern
    /\ search_loop (Demo.runtime (Demo.pages (JArr [])))
         (JStr "octocat") regex_pattern
         [Demo.gist_a; Demo.gist_b; Demo.gist_c] [] []
       = (Returns ["https://gist.github.com/octocat/aaa"],
          [Demo.raw "a.txt"; Demo.raw "b.txt"; Demo.raw "c.txt"]).
Proof.
  eexists. split; [reflexivity |].
  refine (search_loop_collects
            (Demo.runtime (Demo.pages (JArr [])))
            (Demo.web (Demo.pages (JArr [])) []) (JStr "octocat") _
            [Demo.gist_a; Demo.gist_b; Demo.gist_c]
            [{| raw_address := Demo.raw "a.txt";
                answer := Demo.ok_text (embedded_line "bar" "foo" "baz");
                public_address := "https://gist.github.com/octocat/aaa" |};
             {| raw_address := Demo.raw "b.txt";
                answer := Demo.ok_text "nothing here";
                public_address := "https://gist.github.com/octocat/bbb" |};
             {| raw_address := Demo.raw "c.txt";
                answer := Demo.not_found;
                public_address := "https://gist.github.com/octocat/ccc" |}]
            (fun log url => eq_refl) _ [] []).
  repeat constructor.
  - exists [("id", JStr "aaa");
            ("files", JObj [("a.txt", JObj [("raw_url",
                                             JStr (Demo.raw "a.txt"))])])],
           "a.txt", (JObj [("raw_url", JStr (Demo.raw "a.txt"))]),
           (JStr (Demo.raw "a.txt")), (JStr "aaa").
    repeat split.
  - exists [("id", JStr "bbb");
            ("files", JObj [("b.txt", JObj [("raw_url",
                                             JStr (Demo.raw "b.txt"))])])],
           "b.txt", (JObj [("raw_url", JStr (Demo.raw "b.txt"))]),
           (JStr (Demo.raw "b.txt")), (JStr "bbb").
    repeat split.
  - exists [("id", JStr "ccc");
            ("files", JObj [("c.txt", JObj [("raw_url",
                                             JStr (Demo.raw "c.txt"))])])],
           "c.txt", (JObj [("raw_url", JStr (Demo.raw "c.txt"))]),
           (JStr (Demo.raw "c.txt")), (JStr "ccc").
    repeat split.
Defined.

(** X11: the loop over a sequence is the loop over its first part
    followed by the loop over the rest, started with the matches and
    the log the first part left; an exception in the first part ends
    the loop there, so the gists after it are not fetched and the
    matches collected so far are not returned. *)
Theorem search_loop_app rt username regex_pattern gists1 gists2 :
  forall match_list log,
  search_loop rt username regex_pattern (gists1 ++ gists2) match_list log
  = match search_loop rt username regex_pattern gists1 match_list log with
    | (Returns match_list', log') =>
        search_loop rt username regex_pattern gists2 match_list' log'
    | (Raises e, log') => (Raises e, log')
    end.
Proof.
  induction gists1 as [| gist rest IH]; intros match_list log; simpl;
    [reflexivity |].
  unfold bind.
  destruct (search_gist rt username regex_pattern gist match_list log)
    as [[match_list' |] log1]; [apply IH | reflexivity].
Qed.

(** X12: the [id] of a gist is read only when the pattern matched: a
    gist without [id], with one file fetched with status 200, is passed
    over when nothing matches and raises [KeyError] at line 99, after
    the fetch, when something does. *)
Theorem search_gist_without_id
    rt username regex_pattern members name value raw_url response
    match_list log :
  Py.lookup "files" members = Some (JObj [(name, value)]) ->
  Py.getitem value "raw_url" = Returns raw_url ->
  http_get rt log (py_str rt raw_url) = Returns response ->
  status_code response = 200 ->
  Py.lookup "id" members = None ->
  search_gist rt username regex_pattern (JObj members) match_list log
  = (match findall regex_pattern (text response) with
     | [] => Returns match_list
     | _ :: _ => Raises KeyError
     end,
     log ++ [py_str rt raw_url]).
Proof.
  intros Hf Hraw Hget Hstatus Hid.
  unfold search_gist, requests_get, bind, lift, ret. simpl.
  rewrite Hf. simpl. rewrite Hraw, Hget, Hstatus. simpl.
  destruct (findall regex_pattern (text response)); simpl.
  - reflexivity.
  - rewrite Hid. reflexivity.
Qed.

Lemma search_gist_without_id_witness :
  exists regex_pattern,
    re_compile (Demo.runtime []) "^foo$" search_flags = Returns regex_pattern
    /\ search_gist (Demo.runtime (Demo.pages (JArr []))) (JStr "octocat")
         regex_pattern
         (JObj [("files",
                 JObj [("a.txt",
                        JObj [("raw_url", JStr (Demo.raw "a.txt"))])])])
         [] []
       = (Raises KeyError, [Demo.raw "a.txt"])
    /\ search_gist (Demo.runtime (Demo.pages (JArr []))) (JStr "octocat")
         regex_pattern
         (JObj [("files",
                 JObj [("b.txt",
                        JObj [("raw_url", JStr (Demo.raw "b.txt"))])])])
         [] []
       = (Returns [], [Demo.raw "b.txt"]).
Proof.
  eexists. split; [reflexivity |]. split.
  - rewrite (search_gist_without_id
               (Demo.runtime (Demo.pages (JArr []))) (JStr "octocat") _
               [("files",
                 JObj [("a.txt",
                        JObj [("raw_url", JStr (Demo.raw "a.txt"))])])]
               "a.txt" (JObj [("raw_url", JStr (Demo.raw "a.txt"))])
               (JStr (Demo.raw "a.txt"))
               (Demo.ok_text (embedded_line "bar" "foo" "baz"))
               [] [] eq_refl eq_refl eq_refl eq_refl eq_refl).
    reflexivity.
  - rewrite (search_gist_without_id
               (Demo.runtime (Demo.pages (JArr []))) (JStr "octocat") _
               [("files",
                 JObj [("b.txt",
                        JObj [("raw_url", JStr (Demo.raw "b.txt"))])])]
               "b.txt" (JObj [("raw_url", JStr (Demo.raw "b.txt"))])
               (JStr (Demo.raw "b.txt")) (Demo.ok_text "nothing here")
               [] [] eq_refl eq_refl eq_refl eq_refl eq_refl).
    reflexivity.
Defined.

(** X13: a gist that is a dict but not of the expected form raises
    before any fetch: [KeyError] without [files], [AttributeError] when
    [files] is not an object, [ValueError] when it has not exactly one
    entry, and [KeyError] or [TypeError] when the one file has no
    [raw_url]. *)
Theorem search_gist_malformed
    rt username regex_pattern members match_list log :
  match Py.lookup "files" members with
  | None =>
      search_gist rt username regex_pattern (JObj members) match_list log
      = (Raises KeyError, log)
  | Some (JObj [(name, value)]) =>
      has_field "raw_url" value = false ->
      search_gist rt username regex_pattern (JObj members) match_list log
      = (Raises (match value with JObj _ => KeyError | _ => TypeError end),
         log)
  | Some (JObj _) =>
      search_gist rt username regex_pattern (JObj members) match_list log
      = (Raises ValueError, log)
  | Some _ =>
      search_gist rt username regex_pattern (JObj members) match_list log
      = (Raises AttributeError, log)
  end.
Proof.
  unfold search_gist, bind, lift. simpl.
  destruct (Py.lookup "files" members) as [files |]; [| reflexivity].
  destruct files as [| | | | | | files]; try reflexivity.
  destruct files as [| [name value] [| file files]]; try reflexivity.
  simpl. intros Hraw.
  destruct value; try reflexivity.
  simpl in *. unfold Py.has_key in Hraw.
  destruct (Py.lookup "raw_url" members0); [discriminate | reflexivity].
Qed.
